(** * Angular-interview-prep: the markdown viewer and the topic list

    A shallow embedding of the two components of the application,
    [src/app/markdown-viewer/markdown-viewer.component.ts] and
    [src/app/app.component.ts], and the properties of their load/error
    life cycle.

    Signals ([signal<T>(v)], read with [()], written with [.set]) are
    record fields; a method is a command over the component's fields that
    also records the calls it makes on the browser ([console.log],
    [window.scrollTo], an HTTP GET). *)

From Stdlib Require Import String Ascii ZArith List Bool.
From stdpp Require Import base gmap strings list.
Import ListNotations.


(** ** Commands: state passing with a trace of browser calls *)

Inductive Effect : Type :=
  | ConsoleLog (line : string)
  | WindowScrollTo (top : Z) (behavior : string)
  | HttpGet (url : string).

Section Commands.
Context {S : Type}.

Definition Act (A : Type) : Type := S -> A * S * list Effect.

Definition ret {A} (a : A) : Act A := fun s => (a, s, []).

Definition bind {A B} (m : Act A) (k : A -> Act B) : Act B :=
  fun s =>
    let '(a, s1, o1) := m s in
    let '(b, s2, o2) := k a s1 in
    (b, s2, o1 ++ o2).

Definition emit (e : Effect) : Act unit := fun s => (tt, s, [e]).
Definition reads {A} (f : S -> A) : Act A := fun s => (f s, s, []).
Definition writes (f : S -> S) : Act unit := fun s => (tt, f s, []).

Definition exec {A} (m : Act A) (s : S) : S := snd (fst (m s)).
Definition effects {A} (m : Act A) (s : S) : list Effect := snd (m s).
End Commands.

Arguments Act : clear implicits.

Notation "x <- m ;; k" := (bind m (fun x => k))
  (at level 100, m at next level, right associativity).
Notation "m ;; k" := (bind m (fun _ => k))
  (at level 100, right associativity).

(** ** JavaScript values and strings *)

(** The values a callback parameter typed [any] receives here: the
    primitives (numbers restricted to the integers) and [Error]
    objects. *)
Inductive JsValue : Type :=
  | JsUndefined
  | JsNull
  | JsBool (b : bool)
  | JsNumber (n : Z)
  | JsString (s : string)
  | JsErrorObject (name message : string).

(** ['./' + v] where [v] is a property read from an object whose values
    are strings: a missing property reads as [undefined], which the
    concatenation prints as the word. *)
Definition js_concat_prop (pre : string) (v : option string) : string :=
  match v with
  | Some str => pre +:+ str
  | None => pre +:+ "undefined"
  end.

(** [hay.includes(needle)]. *)
Fixpoint includes (needle hay : string) : bool :=
  String.prefix needle hay
  || match hay with
     | EmptyString => false
     | String _ rest => includes needle rest
     end.

(** ** The markdown viewer *)

Module MarkdownViewerComponent.

(** The route's parameters, an object from names to strings. *)
Abbreviation Params := (gmap string string).

Record State : Type := mkState {
  filePath : string;
  loading : bool;
  error : string
}.

(** The field initialisers. *)
Definition initial : State :=
  {| filePath := ""; loading := true; error := "" |}.

Definition filePath_set (v : string) : Act State unit :=
  writes (fun s => {| filePath := v; loading := loading s; error := error s |}).
Definition loading_set (v : bool) : Act State unit :=
  writes (fun s => {| filePath := filePath s; loading := v; error := error s |}).
Definition error_set (v : string) : Act State unit :=
  writes (fun s => {| filePath := filePath s; loading := loading s; error := v |}).

(** [constructor()] subscribes this callback to [route.params]; it runs
    at every value the observable delivers. *)
Definition paramsNext (params : Params) : Act State unit :=
  filePath_set (js_concat_prop "./" (params !! "title")) ;;
  emit (WindowScrollTo 0 "smooth").

Definition onLoad (content : string) : Act State unit :=
  emit (ConsoleLog content) ;;
  loading_set false.

Definition onError (err : JsValue) : Act State unit :=
  fp <- reads filePath ;;
  error_set ("Can't find " +:+ fp +:+ ".md").

(** The parameters of the route [:title] at the segment [id]. *)
Definition routeParams (id : string) : Params := {[ "title" := id ]}.

(** What reaches the component after its construction: a change of the
    route's parameters, or one of the two outputs of the markdown
    widget. *)
Inductive Event : Type :=
  | RouteParams (params : Params)
  | MarkdownLoad (content : string)
  | MarkdownError (err : JsValue).

Definition handle (ev : Event) : Act State unit :=
  match ev with
  | RouteParams params => paramsNext params
  | MarkdownLoad content => onLoad content
  | MarkdownError err => onError err
  end.

Fixpoint run (evs : list Event) (s : State) : State :=
  match evs with
  | [] => s
  | ev :: rest => run rest (exec (handle ev) s)
  end.

(** The states the component can be in are [run evs initial]. *)

Definition isLoad (ev : Event) : bool :=
  match ev with MarkdownLoad _ => true | _ => false end.
Definition isError (ev : Event) : bool :=
  match ev with MarkdownError _ => true | _ => false end.

(** *** The load state of the specification *)

(** Modelled from the spec: the enumeration loading / loaded / errored
    of the specification's data model.  The source declares no such
    type: the component keeps the two signals [loading] and [error],
    and the template that displays them is not among the sources. *)
Inductive LoadState : Type := Loading | Loaded | Errored.

(** Modelled from the spec: when a load state holds, read off the two
    signals: loading while [loading()] is true, errored while [error()]
    is a non-empty string, loaded when neither is the case. *)
Definition holds (l : LoadState) (s : State) : bool :=
  match l with
  | Loading => loading s
  | Loaded => negb (loading s) && String.eqb (error s) ""
  | Errored => negb (String.eqb (error s) "")
  end.

(** The load states that hold in [s], in the order above. *)
Definition holding (s : State) : list LoadState :=
  List.filter (fun l => holds l s) [Loading; Loaded; Errored].

(** The path the failure message names: the stored path with the
    markdown suffix, as [onError] builds it. *)
Definition attemptedPath (s : State) : string := filePath s +:+ ".md".

End MarkdownViewerComponent.

(** ** The application shell and its topic list *)

(** What an observable delivers to its subscriber: a value, or an
    error. *)
Inductive Notification (A : Type) : Type :=
  | Next (value : A)
  | Error (err : JsValue).
Arguments Next {A} value.
Arguments Error {A} err.

(** [observable.subscribe(next)]: a subscriber with a [next] callback and
    no [error] callback.  An error runs no code of the subscriber. *)
Definition subscribeNext {S A} (next : A -> Act S unit)
    (n : Notification A) : Act S unit :=
  match n with
  | Next value => next value
  | Error _ => ret tt
  end.

Module AppComponent.

(** [published] is the date's time value, in milliseconds. *)
Record Topic : Type := mkTopic {
  id : Z;
  title : string;
  description : string;
  published : Z;
  link : string
}.

Record State : Type := mkState {
  topics : list Topic
}.

Definition initial : State := {| topics := [] |}.

Definition topics_set (v : list Topic) : Act State unit :=
  writes (fun _ => {| topics := v |}).

(** [ngOnInit] issues the request and subscribes; [response] is what
    the request's observable then delivers. *)
Definition ngOnInit (response : Notification (list Topic)) : Act State unit :=
  emit (HttpGet "./topics.json") ;;
  subscribeNext (fun data => topics_set data) response.

End AppComponent.

Import MarkdownViewerComponent.

(** ** Whole runs of the viewer *)

(** The events of a run handled one after the other, as one command, so
    that the browser calls of the run can be read off. *)
Fixpoint handleAll (evs : list Event) : Act State unit :=
  match evs with
  | [] => ret tt
  | ev :: rest => handle ev ;; handleAll rest
  end.

(** The browser calls one event is expected to cause. *)
Definition callsOf (ev : Event) : list Effect :=
  match ev with
  | RouteParams _ => [WindowScrollTo 0 "smooth"]
  | MarkdownLoad content => [ConsoleLog content]
  | MarkdownError _ => []
  end.

Definition paramsOf (ev : Event) : option Params :=
  match ev with
  | RouteParams params => Some params
  | _ => None
  end.

(** The parameters of the last identifier change of a run, if any. *)
Definition lastParams (evs : list Event) : option Params :=
  last (omap paramsOf evs).

(** The path [paramsNext] stores for [params]. *)
Definition pathOf (params : Params) : string :=
  js_concat_prop "./" (params !! "title").

(** A stored path is empty (never set) or starts with the fixed prefix;
    a message is empty (never set) or names such a path. *)
Definition pathShape (p : string) : Prop :=
  p = "" \/ String.prefix "./" p = true.

Definition messageShape (m : string) : Prop :=
  m = "" \/ exists p, pathShape p /\ m = "Can't find " +:+ p +:+ ".md".

(** ** The variant of the viewer with [filePath] as a required input

    The second definition of the component in
    [markdown-viewer.component.ts]: [filePath] is an input of the
    component, and [onError] records what the error value says. *)

Module MarkdownViewerInputVariant.

(** [error] is declared [signal('')], and [onError] sets it from a value
    typed [any]: it can hold any value. *)
Record State : Type := mkState {
  loading : bool;
  error : JsValue
}.

Definition initial : State :=
  {| loading := true; error := JsString "" |}.

(** [v.message]: reading a property of [undefined] or [null] throws a
    [TypeError] ([None]); a primitive has no such property; an [Error]
    object has its message. *)
Definition js_get_message (v : JsValue) : option JsValue :=
  match v with
  | JsUndefined | JsNull => None
  | JsBool _ | JsNumber _ | JsString _ => Some JsUndefined
  | JsErrorObject _ message => Some (JsString message)
  end.

(** The truth value of [v] in a condition. *)
Definition js_truthy (v : JsValue) : bool :=
  match v with
  | JsUndefined | JsNull => false
  | JsBool b => b
  | JsNumber n => negb (Z.eqb n 0)
  | JsString str => negb (String.eqb str "")
  | JsErrorObject _ _ => true
  end.

(** [this.error.set(error.message ? error.message : error)]; [None] when
    the call throws. *)
Definition onError (err : JsValue) (s : State) : option State :=
  match js_get_message err with
  | None => None
  | Some message =>
      Some {| loading := loading s;
              error := if js_truthy message then message else err |}
  end.

End MarkdownViewerInputVariant.

(** ** What one call does to the fields *)

Lemma exec_paramsNext (params : Params) (s : State) :
  exec (paramsNext params) s =
  {| filePath := js_concat_prop "./" (params !! "title");
     loading := loading s;
     error := error s |}.
Proof. reflexivity. Qed.

Lemma exec_onLoad (content : string) (s : State) :
  exec (onLoad content) s =
  {| filePath := filePath s; loading := false; error := error s |}.
Proof. reflexivity. Qed.

Lemma exec_onError (err : JsValue) (s : State) :
  exec (onError err) s =
  {| filePath := filePath s;
     loading := loading s;
     error := "Can't find " +:+ filePath s +:+ ".md" |}.
Proof. reflexivity. Qed.

Lemma routeParams_title (id : string) :
  js_concat_prop "./" (routeParams id !! "title") = "./" +:+ id.
Proof.
  unfold routeParams. rewrite lookup_singleton_eq. reflexivity.
Qed.

(** ** Substrings *)

Lemma prefix_append (p rest : string) : String.prefix p (p +:+ rest) = true.
Proof.
  induction p as [|c p IH]; simpl.
  - destruct rest; reflexivity.
  - destruct (ascii_dec c c) as [_|Hne]; [exact IH | now destruct Hne].
Qed.

Lemma includes_prefix (p h : string) :
  String.prefix p h = true -> includes p h = true.
Proof.
  intros Hp. destruct h; simpl in *; rewrite Hp; reflexivity.
Qed.

Lemma includes_append_l (p pre h : string) :
  includes p h = true -> includes p (pre +:+ h) = true.
Proof.
  intros Hh. induction pre as [|c pre IH]; simpl.
  - exact Hh.
  - rewrite IH. apply orb_true_r.
Qed.

Lemma includes_middle (p pre post : string) :
  includes p (pre +:+ p +:+ post) = true.
Proof.
  apply includes_append_l, includes_prefix, prefix_append.
Qed.

(** ** The load state along a run *)

Lemma holding_cases (s : State) :
  holding s =
  if loading s
  then (if String.eqb (error s) "" then [Loading] else [Loading; Errored])
  else (if String.eqb (error s) "" then [Loaded] else [Errored]).
Proof.
  unfold holding; simpl.
  destruct (loading s), (String.eqb (error s) ""); reflexivity.
Qed.

Lemma loading_run (evs : list Event) (s : State) :
  loading (run evs s) = loading s && negb (existsb isLoad evs).
Proof.
  revert s; induction evs as [|ev evs IH]; intros s; cbn [run existsb].
  - now rewrite andb_true_r.
  - rewrite IH. destruct ev; simpl; try reflexivity.
    now rewrite andb_false_r.
Qed.

Lemma errored_run (evs : list Event) (s : State) :
  holds Errored (run evs s) = holds Errored s || existsb isError evs.
Proof.
  revert s; induction evs as [|ev evs IH]; intros s; cbn [run existsb].
  - now rewrite orb_false_r.
  - rewrite IH. destruct ev; simpl; try reflexivity.
    now rewrite orb_true_r.
Qed.

Lemma run_app (evs evs' : list Event) (s : State) :
  run (evs ++ evs') s = run evs' (run evs s).
Proof.
  revert s; induction evs as [|ev evs IH]; intros s; simpl;
    [reflexivity | apply IH].
Qed.

Lemma run_params_only (ps : list Params) (s : State) :
  loading (run (map RouteParams ps) s) = loading s
  /\ error (run (map RouteParams ps) s) = error s.
Proof.
  revert s; induction ps as [|p ps IH]; intros s; simpl.
  - split; reflexivity.
  - destruct (IH (exec (paramsNext p) s)) as [Hl He].
    rewrite Hl, He. split; reflexivity.
Qed.

Lemma prefix_refl (p : string) : String.prefix p p = true.
Proof.
  induction p as [|c p IH]; simpl; [reflexivity|].
  destruct (ascii_dec c c) as [_|Hne]; [exact IH | now destruct Hne].
Qed.

(** ** The success callback *)

(** C1, refuted as stated: a document that fails to load leaves its
    message behind; after navigating to a document that loads, [onLoad]
    returns with that message still in [error], so the state is errored
    and not loaded. *)
Lemma onLoad_keeps_prior_error :
  error (exec (onLoad "# Intro")
           (run [RouteParams (routeParams "missing"); MarkdownError JsNull;
                 RouteParams (routeParams "intro")] initial))
  = "Can't find ./missing.md"
  /\ holding (exec (onLoad "# Intro")
           (run [RouteParams (routeParams "missing"); MarkdownError JsNull;
                 RouteParams (routeParams "intro")] initial))
     = [Errored].
Proof. split; vm_compute; reflexivity. Qed.

(** C1, as amended: for every content string passed to [onLoad], the
    loading flag becomes false while the error message and the file path
    stay as they were; the resulting load state is exactly "loaded" with
    an empty error message if and only if the error message was empty
    before the call. *)
Theorem onLoad_state (content : string) (s : State) :
  loading (exec (onLoad content) s) = false
  /\ error (exec (onLoad content) s) = error s
  /\ filePath (exec (onLoad content) s) = filePath s
  /\ (holding (exec (onLoad content) s) = [Loaded]
      /\ error (exec (onLoad content) s) = ""
      <-> error s = "").
Proof.
  rewrite exec_onLoad, holding_cases; cbn [loading error filePath].
  do 3 (split; [reflexivity|]).
  split.
  - intros [_ He]; exact He.
  - intros He; rewrite He; split; reflexivity.
Qed.

(** ** The failure callback *)

(** C2, refuted as stated: a failure reported while the first document
    is still loading leaves the loading flag set, so "loading" and
    "errored" hold together. *)
Lemma onError_while_loading :
  holding (exec (onError (JsErrorObject "HttpErrorResponse" "Not Found"))
             (run [RouteParams (routeParams "missing")] initial))
  = [Loading; Errored]
  /\ loading (exec (onError (JsErrorObject "HttpErrorResponse" "Not Found"))
             (run [RouteParams (routeParams "missing")] initial))
     = true.
Proof. split; vm_compute; reflexivity. Qed.

(** C2, as amended: for every error value passed to [onError], the
    recorded message is "Can't find " followed by the stored path and
    ".md", so it contains the attempted path and "errored" holds; the
    loading flag and the file path stay as they were, and "errored" is
    the only state that holds exactly when the loading flag was already
    false. *)
Theorem onError_state (err : JsValue) (s : State) :
  error (exec (onError err) s) = "Can't find " +:+ attemptedPath s
  /\ includes (attemptedPath s) (error (exec (onError err) s)) = true
  /\ includes (filePath s) (error (exec (onError err) s)) = true
  /\ holds Errored (exec (onError err) s) = true
  /\ loading (exec (onError err) s) = loading s
  /\ filePath (exec (onError err) s) = filePath s
  /\ (holding (exec (onError err) s) = [Errored] <-> loading s = false).
Proof.
  rewrite exec_onError, holding_cases; cbn [loading error filePath].
  split; [reflexivity|].
  split; [apply includes_append_l, includes_prefix, prefix_refl|].
  split; [apply includes_middle|].
  split; [reflexivity|].
  split; [reflexivity|].
  split; [reflexivity|].
  change (String.eqb ("Can't find " +:+ filePath s +:+ ".md") "") with false.
  destruct (loading s); split; intros H; (reflexivity || discriminate H).
Qed.

(** ** A change of the document identifier *)

(** C3, refuted as stated: after a successful load a change of the
    identifier leaves the loading flag false (the state stays "loaded"),
    and after a failed load it leaves the old message in place. *)
Lemma paramsNext_does_not_reset :
  holding (exec (paramsNext (routeParams "other"))
             (run [RouteParams (routeParams "intro"); MarkdownLoad "# Intro"]
                initial))
  = [Loaded]
  /\ error (exec (paramsNext (routeParams "intro"))
             (run [RouteParams (routeParams "missing"); MarkdownError JsNull]
                initial))
     = "Can't find ./missing.md".
Proof. split; vm_compute; reflexivity. Qed.

(** C3, as amended: a change of the document identifier replaces the
    stored file path by "./" followed by the identifier and nothing
    else; the loading flag, the error message and with them the load
    state stay as they were, over any number of identifier changes. *)
Theorem paramsNext_state (id : string) (s : State) :
  filePath (exec (paramsNext (routeParams id)) s) = "./" +:+ id
  /\ loading (exec (paramsNext (routeParams id)) s) = loading s
  /\ error (exec (paramsNext (routeParams id)) s) = error s
  /\ holding (exec (paramsNext (routeParams id)) s) = holding s
  /\ (forall ids : list string,
        loading (run (map RouteParams (map routeParams ids)) s) = loading s
        /\ error (run (map RouteParams (map routeParams ids)) s) = error s).
Proof.
  rewrite exec_paramsNext, routeParams_title.
  repeat split; try reflexivity; apply run_params_only.
Qed.

(** ** The load state over every run *)

(** C4, refuted as stated: the state reached from the initial state by
    one identifier change and one failure callback has two load states
    holding at once. *)
Lemma two_states_hold :
  holding (run [RouteParams (routeParams "missing");
                MarkdownError (JsString "404")] initial)
  = [Loading; Errored].
Proof. vm_compute; reflexivity. Qed.

(** C4, as amended: in the state reached by any sequence of identifier
    changes, success callbacks and failure callbacks, the load states
    that hold are determined by which callbacks occurred: "loaded" after
    a success and no failure, "errored" after a success and a failure,
    "loading" after neither, and both "loading" and "errored" after a
    failure with no success.  So at least one state always holds, and
    exactly one holds if and only if a success callback occurred or no
    failure callback did. *)
Theorem load_states_along_run (evs : list Event) :
  holding (run evs initial) =
    (if existsb isLoad evs
     then (if existsb isError evs then [Errored] else [Loaded])
     else (if existsb isError evs then [Loading; Errored] else [Loading]))
  /\ ((exists l, holding (run evs initial) = [l])
      <-> existsb isLoad evs = true \/ existsb isError evs = false).
Proof.
  assert (Hh : holding (run evs initial) =
    (if existsb isLoad evs
     then (if existsb isError evs then [Errored] else [Loaded])
     else (if existsb isError evs then [Loading; Errored] else [Loading]))).
  { rewrite holding_cases, loading_run.
    pose proof (errored_run evs initial) as He.
    cbn [holds] in He. change (String.eqb (error initial) "") with true in He.
    cbn [loading initial negb orb andb] in *.
    destruct (existsb isLoad evs), (existsb isError evs),
      (String.eqb (error (run evs initial)) "");
      simpl in *; try reflexivity; discriminate He. }
  split; [exact Hh|]. rewrite Hh.
  destruct (existsb isLoad evs), (existsb isError evs); split;
    try (intros _; eexists; reflexivity);
    try (intros _; (left + right); reflexivity).
  - intros [l Hl]; discriminate Hl.
  - intros [H|H]; discriminate H.
Qed.

(** ** Resolving the fetch path *)

(** C5, refuted as stated: for the identifier "intro" the component
    stores "./intro", without the markdown suffix. *)
Lemma stored_path_has_no_suffix :
  filePath (run [RouteParams (routeParams "intro")] initial) = "./intro"
  /\ String.eqb (filePath (run [RouteParams (routeParams "intro")] initial))
       "./intro.md" = false.
Proof. split; vm_compute; reflexivity. Qed.

(** C5, as amended: for the identifier "intro" the path stored by the
    component is "./intro" (the fixed prefix applied, no suffix); the
    markdown suffix is not part of the stored path, and the failure
    message names the attempted path as "./intro.md". *)
Theorem intro_path (err : JsValue) (s : State) :
  filePath (exec (paramsNext (routeParams "intro")) s) = "./intro"
  /\ attemptedPath (exec (paramsNext (routeParams "intro")) s) = "./intro.md"
  /\ error (exec (onError err) (exec (paramsNext (routeParams "intro")) s))
     = "Can't find ./intro.md".
Proof.
  rewrite exec_onError, exec_paramsNext. unfold attemptedPath.
  cbn [filePath]. rewrite routeParams_title. repeat split; reflexivity.
Qed.

(** C6: the path resolved for an identifier is the same whatever state
    the component is in, and so whatever happened before: after any
    events, a change to the identifier [id] stores "./" followed by
    [id]. *)
Theorem path_depends_on_id_only (id : string) (s1 s2 : State) :
  filePath (exec (paramsNext (routeParams id)) s1)
  = filePath (exec (paramsNext (routeParams id)) s2)
  /\ (forall evs : list Event,
        filePath (run (evs ++ [RouteParams (routeParams id)]) initial)
        = "./" +:+ id).
Proof.
  split.
  - rewrite !exec_paramsNext. reflexivity.
  - intros evs. rewrite run_app. cbn [run handle].
    rewrite exec_paramsNext. cbn [filePath]. apply routeParams_title.
Qed.

(** C9: the field initialisers give a true loading flag, an empty error
    message and an empty file path, and that is the state before any
    event. *)
Theorem initial_fields :
  loading initial = true
  /\ error initial = ""
  /\ filePath initial = ""
  /\ run [] initial = initial.
Proof. repeat split; reflexivity. Qed.

(** C10: [onError] never reads its argument: for any two error values
    and the same state, the resulting fields and the browser calls made
    are identical. *)
Theorem onError_ignores_argument (e1 e2 : JsValue) (s : State) :
  onError e1 s = onError e2 s
  /\ exec (onError e1) s = exec (onError e2) s
  /\ effects (onError e1) s = effects (onError e2) s.
Proof. repeat split; reflexivity. Qed.

(** ** The topic list *)

(** C7: when the request for the topics succeeds with the list [data],
    the held list is [data] whatever it held before; an empty response
    gives the empty list and a response of one entry gives that
    entry. *)
Theorem topics_replaced (data : list AppComponent.Topic)
    (s : AppComponent.State) :
  AppComponent.topics (exec (AppComponent.ngOnInit (Next data)) s) = data
  /\ AppComponent.topics (exec (AppComponent.ngOnInit (Next [])) s) = []
  /\ (forall t : AppComponent.Topic,
        AppComponent.topics (exec (AppComponent.ngOnInit (Next [t])) s) = [t]).
Proof. repeat split; reflexivity. Qed.

(** C8: when the request for the topics fails, no code of the component
    runs: its state is what it was, so after initialisation the topic
    list is still the empty list; the component has no field that could
    record the error, and the only browser call made is the request
    itself. *)
Theorem topics_failure_ignored (err : JsValue) (s : AppComponent.State) :
  exec (AppComponent.ngOnInit (Error err)) s = s
  /\ AppComponent.topics
       (exec (AppComponent.ngOnInit (Error err)) AppComponent.initial) = []
  /\ effects (AppComponent.ngOnInit (Error err)) s = [HttpGet "./topics.json"].
Proof. repeat split; reflexivity. Qed.

(** ** Commands in sequence *)

Lemma exec_bind {S A B : Type} (m : Act S A) (k : A -> Act S B) (s : S) :
  exec (bind m k) s = exec (k (fst (fst (m s)))) (exec m s).
Proof.
  unfold exec, bind. destruct (m s) as [[a s1] o1]; simpl.
  destruct (k a s1) as [[b s2] o2]; reflexivity.
Qed.

Lemma effects_bind {S A B : Type} (m : Act S A) (k : A -> Act S B) (s : S) :
  effects (bind m k) s
  = effects m s ++ effects (k (fst (fst (m s)))) (exec m s).
Proof.
  unfold effects, exec, bind. destruct (m s) as [[a s1] o1]; simpl.
  destruct (k a s1) as [[b s2] o2]; reflexivity.
Qed.

Lemma effects_handle (ev : Event) (s : State) :
  effects (handle ev) s = callsOf ev.
Proof. destruct ev; reflexivity. Qed.

Lemma exec_handleAll (evs : list Event) (s : State) :
  exec (handleAll evs) s = run evs s.
Proof.
  revert s; induction evs as [|ev evs IH]; intros s; cbn [handleAll run].
  - reflexivity.
  - rewrite exec_bind. apply IH.
Qed.

(** ** Strings: lengths and cancellation *)

Lemma length_append (a b : string) :
  String.length (a +:+ b) = String.length a + String.length b.
Proof.
  induction a as [|c a IH]; simpl; [reflexivity | f_equal; exact IH].
Qed.

Lemma append_cancel_r (a b c : string) : a +:+ c = b +:+ c -> a = b.
Proof.
  revert b; induction a as [|x a IH]; intros [|y b] H.
  - reflexivity.
  - apply (f_equal String.length) in H.
    rewrite (length_append (String y b)) in H.
    change ("" +:+ c) with c in H. simpl in H. lia.
  - apply (f_equal String.length) in H.
    rewrite (length_append (String x a)) in H.
    change ("" +:+ c) with c in H. simpl in H. lia.
  - cbn [String.append] in H. injection H as -> H.
    now rewrite (IH b H).
Qed.

(** ** The stored path along a run *)

Lemma pathShape_pathOf (params : Params) : pathShape (pathOf params).
Proof.
  right. unfold pathOf, js_concat_prop.
  destruct (params !! "title"); apply prefix_append.
Qed.

Lemma step_shape (ev : Event) (s : State) :
  pathShape (filePath s) -> messageShape (error s) ->
  pathShape (filePath (exec (handle ev) s))
  /\ messageShape (error (exec (handle ev) s)).
Proof.
  intros Hp Hm. destruct ev as [params|content|err]; cbn [handle].
  - rewrite exec_paramsNext; cbn [filePath error].
    split; [apply pathShape_pathOf | exact Hm].
  - rewrite exec_onLoad; cbn [filePath error]. split; assumption.
  - rewrite exec_onError; cbn [filePath error].
    split; [exact Hp|]. right. exists (filePath s). split; [exact Hp | reflexivity].
Qed.

Lemma run_shape (evs : list Event) (s : State) :
  pathShape (filePath s) -> messageShape (error s) ->
  pathShape (filePath (run evs s)) /\ messageShape (error (run evs s)).
Proof.
  revert s; induction evs as [|ev evs IH]; intros s Hp Hm; cbn [run].
  - split; assumption.
  - destruct (step_shape ev s Hp Hm) as [Hp' Hm']. apply IH; assumption.
Qed.

Lemma step_onLoad_commutes (content : string) (ev : Event) (s : State) :
  exec (onLoad content) (exec (handle ev) s)
  = exec (handle ev) (exec (onLoad content) s).
Proof. destruct ev; reflexivity. Qed.

(** ** Properties of the route-parameter callback *)

(** X1: when the route's parameters have no [title], the stored path is
    "./undefined", and a failure reported then names
    "./undefined.md". *)
Theorem missing_title_reads_undefined (params : Params) (err : JsValue)
    (s : State) :
  params !! "title" = None ->
  filePath (exec (paramsNext params) s) = "./undefined"
  /\ error (exec (onError err) (exec (paramsNext params) s))
     = "Can't find ./undefined.md".
Proof.
  intros Hnone. rewrite exec_onError, exec_paramsNext; cbn [filePath].
  rewrite Hnone. split; reflexivity.
Qed.

Lemma missing_title_reads_undefined_witness :
  ({[ "id" := "intro" ]} : Params) !! "title" = None
  /\ filePath (exec (paramsNext {[ "id" := "intro" ]}) initial) = "./undefined"
  /\ error (exec (onError JsNull)
              (exec (paramsNext {[ "id" := "intro" ]}) initial))
     = "Can't find ./undefined.md".
Proof.
  split; [reflexivity|].
  apply (missing_title_reads_undefined {[ "id" := "intro" ]} JsNull initial).
  reflexivity.
Defined.

(** X2: parameters other than [title] play no part: adding, replacing
    or removing any other parameter changes neither the fields nor the
    browser calls of the callback. *)
Theorem other_params_ignored (params : Params) (k v : string) (s : State) :
  k <> "title" ->
  paramsNext (<[ k := v ]> params) s = paramsNext params s
  /\ paramsNext (delete k params) s = paramsNext params s.
Proof.
  intros Hk. unfold paramsNext.
  rewrite lookup_insert_ne, lookup_delete_ne by exact Hk.
  split; reflexivity.
Qed.

Lemma other_params_ignored_witness :
  "page" <> "title"
  /\ paramsNext (<[ "page" := "2" ]> (routeParams "intro")) initial
     = paramsNext (routeParams "intro") initial
  /\ paramsNext (delete "page" (routeParams "intro")) initial
     = paramsNext (routeParams "intro") initial.
Proof.
  split; [discriminate|].
  apply (other_params_ignored (routeParams "intro") "page" "2" initial).
  discriminate.
Defined.

(** ** Properties of whole runs *)

Lemma filePath_run (evs : list Event) (s : State) :
  filePath (run evs s) = from_option pathOf (filePath s) (lastParams evs).
Proof.
  induction evs as [|ev evs IH] using rev_ind.
  - reflexivity.
  - rewrite run_app. cbn [run]. unfold lastParams in *.
    rewrite omap_app.
    destruct ev as [params|content|err]; cbn [omap list_omap paramsOf handle].
    + rewrite last_snoc, exec_paramsNext. reflexivity.
    + rewrite app_nil_r, exec_onLoad. exact IH.
    + rewrite app_nil_r, exec_onError. exact IH.
Qed.

(** X3: no history is kept: after any run the stored path is the one of
    the last identifier change of the run, or the path held before the
    run when it has none; success and failure callbacks never change
    it. *)
Theorem filePath_is_last_change (evs : list Event) (s : State) :
  filePath (run evs s) = from_option pathOf (filePath s) (lastParams evs).
Proof. apply filePath_run. Qed.

(** X4: the loading flag never comes back: once it is false it is false
    after every further sequence of events. *)
Theorem loading_never_returns (evs : list Event) (s : State) :
  loading s = false -> loading (run evs s) = false.
Proof. intros Hl. rewrite loading_run, Hl. reflexivity. Qed.

Lemma loading_never_returns_witness :
  loading (run [MarkdownLoad "# Intro"] initial) = false
  /\ loading (run [RouteParams (routeParams "other"); MarkdownError JsNull]
                (run [MarkdownLoad "# Intro"] initial)) = false.
Proof.
  split; [reflexivity|].
  apply (loading_never_returns
           [RouteParams (routeParams "other"); MarkdownError JsNull]
           (run [MarkdownLoad "# Intro"] initial)).
  reflexivity.
Defined.

(** X5: the error message is never cleared: once it is non-empty it is
    non-empty after every further sequence of events. *)
Theorem error_never_cleared (evs : list Event) (s : State) :
  error s <> "" -> error (run evs s) <> "".
Proof.
  intros Hne Hempty.
  pose proof (errored_run evs s) as Hrun. cbn [holds] in Hrun.
  rewrite Hempty in Hrun. apply String.eqb_neq in Hne.
  rewrite Hne in Hrun. discriminate Hrun.
Qed.

Lemma error_never_cleared_witness :
  error (run [MarkdownError JsNull] initial) <> ""
  /\ error (run [RouteParams (routeParams "intro"); MarkdownLoad "# Intro"]
              (run [MarkdownError JsNull] initial)) <> "".
Proof.
  split; [discriminate|].
  apply (error_never_cleared
           [RouteParams (routeParams "intro"); MarkdownLoad "# Intro"]
           (run [MarkdownError JsNull] initial)).
  discriminate.
Defined.

(** X6: in every state the component reaches from its initial state,
    the stored path is empty or starts with "./", and the error message
    is empty or is "Can't find ", such a path and ".md". *)
Theorem reachable_shape (evs : list Event) :
  pathShape (filePath (run evs initial))
  /\ messageShape (error (run evs initial)).
Proof. apply run_shape; left; reflexivity. Qed.

(** X7: a failure callback is recorded against the last identifier
    change that precedes it, whichever load it reports: after any run
    ending in a failure callback the message names the path of the
    run's last identifier change (or the path held before the run). *)
Theorem failure_names_last_change (evs : list Event) (err : JsValue)
    (s : State) :
  error (run (evs ++ [MarkdownError err]) s)
  = "Can't find " +:+ from_option pathOf (filePath s) (lastParams evs)
      +:+ ".md".
Proof.
  rewrite run_app. cbn [run handle]. rewrite exec_onError. cbn [error].
  rewrite filePath_run. reflexivity.
Qed.

(** X8: the message can name a document other than the current one: a
    failure recorded for one identifier stays after a change to a
    different identifier, and then differs from the message a failure
    of the current path would give. *)
Theorem message_can_name_another_document (id1 id2 : string)
    (err : JsValue) (s : State) :
  id1 <> id2 ->
  error (run [RouteParams (routeParams id1); MarkdownError err;
              RouteParams (routeParams id2)] s)
  = "Can't find ./" +:+ id1 +:+ ".md"
  /\ error (run [RouteParams (routeParams id1); MarkdownError err;
                 RouteParams (routeParams id2)] s)
     <> "Can't find "
          +:+ attemptedPath
                (run [RouteParams (routeParams id1); MarkdownError err;
                      RouteParams (routeParams id2)] s).
Proof.
  intros Hne. cbn [run handle]. unfold attemptedPath.
  rewrite !exec_paramsNext, exec_onError. cbn [filePath error].
  rewrite !routeParams_title. split; [reflexivity|].
  intros H. apply Hne.
  apply (String.app_inj "Can't find ") in H.
  change (("./" +:+ id1) +:+ ".md") with ("./" +:+ (id1 +:+ ".md")) in H.
  change (("./" +:+ id2) +:+ ".md") with ("./" +:+ (id2 +:+ ".md")) in H.
  apply (String.app_inj "./") in H.
  exact (append_cancel_r _ _ _ H).
Qed.

Lemma message_can_name_another_document_witness :
  "missing" <> "intro"
  /\ error (run [RouteParams (routeParams "missing"); MarkdownError JsNull;
                 RouteParams (routeParams "intro")] initial)
     = "Can't find ./missing.md"
  /\ error (run [RouteParams (routeParams "missing"); MarkdownError JsNull;
                 RouteParams (routeParams "intro")] initial)
     <> "Can't find "
          +:+ attemptedPath
                (run [RouteParams (routeParams "missing"); MarkdownError JsNull;
                      RouteParams (routeParams "intro")] initial).
Proof.
  split; [discriminate|].
  apply (message_can_name_another_document "missing" "intro" JsNull initial).
  discriminate.
Defined.

(** X9: the browser calls of a run are, in order, one smooth scroll to
    the top per identifier change and one console line per success
    callback, carrying its content; a failure callback makes no call,
    and the calls do not depend on the state the run starts in. *)
Theorem browser_calls_of_run (evs : list Event) (s : State) :
  effects (handleAll evs) s = List.flat_map callsOf evs
  /\ exec (handleAll evs) s = run evs s.
Proof.
  split; [|apply exec_handleAll].
  revert s; induction evs as [|ev evs IH]; intros s;
    cbn [handleAll List.flat_map].
  - reflexivity.
  - rewrite effects_bind, effects_handle, IH. reflexivity.
Qed.

(** X10: a success callback commutes with every other event: delivered
    late, after any events, it leaves the same fields as delivered
    before them. *)
Theorem success_callback_commutes (content : string)
    (before after : list Event) (s : State) :
  run (before ++ MarkdownLoad content :: after) s
  = run (MarkdownLoad content :: before ++ after) s.
Proof.
  revert s; induction before as [|ev before IH]; intros s.
  - reflexivity.
  - cbn [app run]. rewrite IH. cbn [run handle].
    rewrite step_onLoad_commutes. reflexivity.
Qed.

(** X11: an event delivered twice in a row leaves the same fields as
    the event delivered once, whatever follows. *)
Theorem repeated_event_idempotent (ev : Event) (evs : list Event)
    (s : State) :
  run (ev :: ev :: evs) s = run (ev :: evs) s.
Proof.
  cbn [run]. f_equal. destruct ev; reflexivity.
Qed.

(** ** The variant with [filePath] as an input *)

(** X12: [onError] of the variant throws exactly when the error value
    is [undefined] or [null]; on every other value it returns. *)
Theorem variant_onError_throws_iff (err : JsValue)
    (s : MarkdownViewerInputVariant.State) :
  MarkdownViewerInputVariant.onError err s = None
  <-> err = JsUndefined \/ err = JsNull.
Proof.
  split.
  - destruct err; cbn; intros H; try discriminate H; auto.
  - intros [-> | ->]; reflexivity.
Qed.

(** X13: when [onError] of the variant returns, the value it records is
    truthy exactly when the error value is, so a falsy error value (the
    empty string, [0], [false]) records no visible error; the loading
    flag is left as it was. *)
Theorem variant_onError_truthy (err : JsValue)
    (s s' : MarkdownViewerInputVariant.State) :
  MarkdownViewerInputVariant.onError err s = Some s' ->
  MarkdownViewerInputVariant.js_truthy (MarkdownViewerInputVariant.error s')
  = MarkdownViewerInputVariant.js_truthy err
  /\ MarkdownViewerInputVariant.loading s'
     = MarkdownViewerInputVariant.loading s.
Proof.
  unfold MarkdownViewerInputVariant.onError.
  destruct err as [| |b|n|str|name message]; cbn; intros H;
    try discriminate H; injection H as <-; cbn; try (split; reflexivity).
  destruct (String.eqb message "") eqn:Hm; cbn; rewrite ?Hm;
    split; reflexivity.
Qed.

Lemma variant_onError_truthy_witness :
  MarkdownViewerInputVariant.onError (JsString "")
    MarkdownViewerInputVariant.initial
  = Some MarkdownViewerInputVariant.initial
  /\ MarkdownViewerInputVariant.js_truthy
       (MarkdownViewerInputVariant.error MarkdownViewerInputVariant.initial)
     = MarkdownViewerInputVariant.js_truthy (JsString "")
  /\ MarkdownViewerInputVariant.loading MarkdownViewerInputVariant.initial
     = MarkdownViewerInputVariant.loading MarkdownViewerInputVariant.initial.
Proof.
  split; [reflexivity|].
  apply (variant_onError_truthy (JsString "")
           MarkdownViewerInputVariant.initial
           MarkdownViewerInputVariant.initial).
  reflexivity.
Defined.
